(** * k15_nespad: reading a NES controller pad over three digital pins

    A shallow embedding of [k15_nespad.h].  The three public functions
    ([K15_NESInitPad], [K15_NESPollButtons], [K15_NESButtonPressed]) are
    written in a small state monad over a machine that holds the memory the
    [K15_NESPad*] arguments point into, the pin I/O performed so far and the
    levels the platform presents to [digitalRead]. *)

From Stdlib Require Import ZArith List Lia Bool.
Import ListNotations.
Local Open Scope Z_scope.

(** ** C integer conversions *)

(** Conversion of an [int] to [unsigned char] (C11 6.3.1.3): the value
    reduced modulo 256. *)
Definition to_uchar (z : Z) : Z := z mod 256.

Definition uchar_range (z : Z) : Prop := 0 <= z < 256.

(** ** Data model *)

(** [typedef struct { unsigned char buttonMask, pulsePin, dataPin, latchPin; } K15_NESPad;] *)
Record K15_NESPad : Type := mkPad {
  buttonMask : Z;
  pulsePin : Z;
  dataPin : Z;
  latchPin : Z
}.

(** Every field is an [unsigned char]. *)
Definition pad_in_range (pad : K15_NESPad) : Prop :=
  uchar_range (buttonMask pad) /\ uchar_range (pulsePin pad) /\
  uchar_range (dataPin pad) /\ uchar_range (latchPin pad).

Definition set_buttonMask (pad : K15_NESPad) (v : Z) : K15_NESPad :=
  {| buttonMask := v; pulsePin := pulsePin pad;
     dataPin := dataPin pad; latchPin := latchPin pad |}.

(** [typedef enum { ... } K15_NESPadButton;]  An enumeration is an integer
    type in C, so a [K15_NESPadButton] argument is a [Z]. *)
Definition K15_NESPadButton_A : Z := 0x01.
Definition K15_NESPadButton_B : Z := 0x02.
Definition K15_NESPadButton_Select : Z := 0x04.
Definition K15_NESPadButton_Start : Z := 0x08.
Definition K15_NESPadButton_Up : Z := 0x10.
Definition K15_NESPadButton_Down : Z := 0x20.
Definition K15_NESPadButton_Left : Z := 0x40.
Definition K15_NESPadButton_Right : Z := 0x80.

(** The enumerators in the order of their declaration. *)
Definition K15_NESPadButton_all : list Z :=
  [ K15_NESPadButton_A; K15_NESPadButton_B; K15_NESPadButton_Select;
    K15_NESPadButton_Start; K15_NESPadButton_Up; K15_NESPadButton_Down;
    K15_NESPadButton_Left; K15_NESPadButton_Right ].

(** ** The machine *)

(** Calls into the platform, as the program issues them. *)
Inductive Event : Type :=
| EvPinMode (pin mode : Z)
| EvDigitalWrite (pin level : Z)
| EvDigitalRead (pin : Z)
| EvDelayMicroseconds (us : Z).

(** A [K15_NESPad*]: [None] is the null pointer, [Some a] the address of a
    struct. *)
Definition ptr : Type := option nat.
Definition NULL : ptr := None.

Record Machine : Type := mkMachine {
  heap : nat -> K15_NESPad;   (* the struct stored at each address *)
  trace : list Event;         (* platform calls so far, oldest first *)
  nreads : nat;               (* number of [digitalRead] calls so far *)
  line : nat -> Z -> Z        (* level returned by the k-th [digitalRead], per pin *)
}.

Definition IO (A : Type) : Type := Machine -> A * Machine.

Definition ret {A : Type} (x : A) : IO A := fun s => (x, s).

Definition bind {A B : Type} (c : IO A) (k : A -> IO B) : IO B :=
  fun s => let (x, s') := c s in k x s'.

Notation "x <- c ;; k" := (bind c (fun x => k))
  (at level 61, c at next level, right associativity).
Notation "c ;; k" := (bind c (fun _ => k))
  (at level 61, right associativity).

Definition emit (e : Event) : IO unit :=
  fun s => (tt, {| heap := heap s; trace := trace s ++ [e];
                   nreads := nreads s; line := line s |}).

(** The platform's four entry points. *)
Definition pinMode (pin mode : Z) : IO unit := emit (EvPinMode pin mode).

Definition digitalWrite (pin level : Z) : IO unit := emit (EvDigitalWrite pin level).

Definition delayMicroseconds (us : Z) : IO unit := emit (EvDelayMicroseconds us).

Definition digitalRead (pin : Z) : IO Z :=
  fun s => (line s (nreads s) pin,
            {| heap := heap s; trace := trace s ++ [EvDigitalRead pin];
               nreads := S (nreads s); line := line s |}).

(** [p_Pad->field] as an rvalue. *)
Definition load (field : K15_NESPad -> Z) (a : nat) : IO Z :=
  fun s => (field (heap s a), s).

(** [*p_Pad = pad]. *)
Definition store (a : nat) (pad : K15_NESPad) : IO unit :=
  fun s => (tt, {| heap := fun a' => if Nat.eqb a' a then pad else heap s a';
                   trace := trace s; nreads := nreads s; line := line s |}).

(** [p_Pad->field = v] for each of the four fields; the assignment converts
    the [int] on the right to [unsigned char]. *)
Definition store_buttonMask (a : nat) (v : Z) : IO unit :=
  fun s => store a {| buttonMask := to_uchar v; pulsePin := pulsePin (heap s a);
                      dataPin := dataPin (heap s a); latchPin := latchPin (heap s a) |} s.

Definition store_pulsePin (a : nat) (v : Z) : IO unit :=
  fun s => store a {| buttonMask := buttonMask (heap s a); pulsePin := to_uchar v;
                      dataPin := dataPin (heap s a); latchPin := latchPin (heap s a) |} s.

Definition store_dataPin (a : nat) (v : Z) : IO unit :=
  fun s => store a {| buttonMask := buttonMask (heap s a); pulsePin := pulsePin (heap s a);
                      dataPin := to_uchar v; latchPin := latchPin (heap s a) |} s.

Definition store_latchPin (a : nat) (v : Z) : IO unit :=
  fun s => store a {| buttonMask := buttonMask (heap s a); pulsePin := pulsePin (heap s a);
                      dataPin := dataPin (heap s a); latchPin := to_uchar v |} s.

(** ** The program *)

Section Program.

(** The platform's macros [HIGH], [LOW], [INPUT] and [OUTPUT] come from
    the platform header, which is not part of the library. *)
Variables HIGH LOW INPUT OUTPUT : Z.

Definition K15_NESInitPad (p_Pad : ptr) (p_PulsePin p_DataPin p_LatchPin : Z) : IO unit :=
  match p_Pad with
  | None => ret tt
  | Some a =>
      store_buttonMask a 0 ;;
      store_pulsePin a p_PulsePin ;;
      store_dataPin a p_DataPin ;;
      store_latchPin a p_LatchPin ;;
      pinMode p_DataPin INPUT ;;
      pinMode p_PulsePin OUTPUT ;;
      pinMode p_LatchPin OUTPUT
  end.

(** The body of the [for] loop: its value is the new [buttonMask]. *)
Definition poll_body (a : nat) (buttonIndex buttonMask : Z) : IO Z :=
  data <- load dataPin a ;;
  dataPulse <- digitalRead data ;;
  pulse <- load pulsePin a ;;
  digitalWrite pulse HIGH ;;
  pulse <- load pulsePin a ;;
  digitalWrite pulse LOW ;;
  ret (if dataPulse =? LOW
       then Z.lor buttonMask (Z.shiftl 1 buttonIndex)
       else buttonMask).

(** [for (buttonIndex = ..; buttonIndex < 8; ++buttonIndex) body], with
    fuel for the number of times the guard may be evaluated to true. *)
Fixpoint poll_loop (fuel : nat) (a : nat) (buttonIndex buttonMask : Z) : IO Z :=
  match fuel with
  | O => ret buttonMask
  | S fuel' =>
      if buttonIndex <? 8
      then buttonMask' <- poll_body a buttonIndex buttonMask ;;
           poll_loop fuel' a (buttonIndex + 1) buttonMask'
      else ret buttonMask
  end.

(** The statements of [K15_NESPollButtons] before the loop. *)
Definition poll_latch (a : nat) : IO unit :=
  latch <- load latchPin a ;;
  digitalWrite latch HIGH ;;
  latch <- load latchPin a ;;
  digitalWrite latch LOW ;;
  delayMicroseconds 6.

Definition K15_NESPollButtons (p_Pad : ptr) : IO unit :=
  match p_Pad with
  | None => ret tt
  | Some a =>
      poll_latch a ;;
      buttonMask <- poll_loop 8 a 0 0 ;;
      store_buttonMask a buttonMask
  end.

Definition K15_NESButtonPressed (p_Pad : ptr) (p_Button : Z) : IO Z :=
  match p_Pad with
  | None => ret 0
  | Some a =>
      mask <- load buttonMask a ;;
      ret (if Z.land mask p_Button >? 0 then 1 else 0)
  end.

End Program.

(** ** What a poll is expected to do, in the words of the protocol *)

(** The level the platform presents on the data pin at the [i]-th sample of
    a poll of the reader at [a] that starts in machine [s]. *)
Definition sampled (s : Machine) (a : nat) (i : nat) : Z :=
  line s (nreads s + i) (dataPin (heap s a)).

(** The integer whose bit [i], for [i < n], is set exactly when level [i]
    is [LOW]. *)
Fixpoint mask_of_levels (LOW : Z) (levels : nat -> Z) (n : nat) : Z :=
  match n with
  | O => 0
  | S n' => mask_of_levels LOW levels n'
            + (if levels n' =? LOW then 2 ^ Z.of_nat n' else 0)
  end.

(** The latch pulse and the settle time. *)
Definition latch_events (HIGH LOW : Z) (pad : K15_NESPad) : list Event :=
  [ EvDigitalWrite (latchPin pad) HIGH; EvDigitalWrite (latchPin pad) LOW;
    EvDelayMicroseconds 6 ].

(** One sample: the read, then the clock pulse. *)
Definition sample_events (HIGH LOW : Z) (pad : K15_NESPad) : list Event :=
  [ EvDigitalRead (dataPin pad);
    EvDigitalWrite (pulsePin pad) HIGH; EvDigitalWrite (pulsePin pad) LOW ].

Definition samples_events (HIGH LOW : Z) (pad : K15_NESPad) (n : nat) : list Event :=
  concat (repeat (sample_events HIGH LOW pad) n).

Definition poll_events (HIGH LOW : Z) (pad : K15_NESPad) : list Event :=
  latch_events HIGH LOW pad ++ samples_events HIGH LOW pad 8.

(** The last level written to [pin] in a trace, if any. *)
Fixpoint driven (pin : Z) (prev : option Z) (tr : list Event) : option Z :=
  match tr with
  | [] => prev
  | EvDigitalWrite p l :: tr' => driven pin (if p =? pin then Some l else prev) tr'
  | _ :: tr' => driven pin prev tr'
  end.

(** Number of high-to-low transitions of [pin] in a trace: writes of [LOW]
    to a pin that was last driven [HIGH].  [prev] is the level the pin has
    when the trace starts. *)
Fixpoint falling_edges (HIGH LOW : Z) (pin : Z) (prev : option Z) (tr : list Event) : nat :=
  match tr with
  | [] => O
  | EvDigitalWrite p l :: tr' =>
      if p =? pin
      then Nat.add
             match prev with
             | Some l0 => if (l0 =? HIGH) && (l =? LOW) then 1%nat else 0%nat
             | None => 0%nat
             end
             (falling_edges HIGH LOW pin (Some l) tr')
      else falling_edges HIGH LOW pin prev tr'
  | _ :: tr' => falling_edges HIGH LOW pin prev tr'
  end.

(** Number of reads of [pin] in a trace. *)
Definition reads_of (pin : Z) (tr : list Event) : nat :=
  length (filter (fun e => match e with EvDigitalRead p => p =? pin | _ => false end) tr).

(** The accumulator of the loop as a function of the levels read: [n]
    iterations starting at [buttonIndex], on [levels 0], [levels 1], ... *)
Fixpoint acc_loop (LOW : Z) (levels : nat -> Z) (n : nat) (buttonIndex acc : Z) : Z :=
  match n with
  | O => acc
  | S n' =>
      acc_loop LOW (fun k => levels (S k)) n' (buttonIndex + 1)
               (if levels O =? LOW then Z.lor acc (Z.shiftl 1 buttonIndex) else acc)
  end.

(** The machine [s] after [n] more reads and the events [evs]. *)
Definition advance (s : Machine) (evs : list Event) (n : nat) : Machine :=
  {| heap := heap s; trace := trace s ++ evs;
     nreads := nreads s + n; line := line s |}.

(** The machine [s] with the struct at [a] replaced. *)
Definition with_pad (s : Machine) (a : nat) (pad : K15_NESPad) : Machine :=
  {| heap := fun a' => if Nat.eqb a' a then pad else heap s a';
     trace := trace s; nreads := nreads s; line := line s |}.

(** A poll of the reader at [a] stopped after the latch pulse and [k]
    turns of the loop: the accumulator and the machine at that point. *)
Definition poll_midway (HIGH LOW : Z) (a : nat) (k : nat) (s : Machine) : Z * Machine :=
  (poll_latch HIGH LOW a ;; poll_loop HIGH LOW k a 0 0) s.

(** ** A concrete platform, for running the program *)

(** The values the Arduino core gives the four macros. *)
Module Arduino.
Definition HIGH : Z := 0x1.
Definition LOW : Z := 0x0.
Definition INPUT : Z := 0x0.
Definition OUTPUT : Z := 0x1.
End Arduino.

(** A machine that has done no I/O yet, whose memory holds [pad] at every
    address and whose pins present [levels] to successive reads (and
    [HIGH], the level of a released button, once they are used up). *)
Definition machine_of (pad : K15_NESPad) (levels : list Z) : Machine :=
  {| heap := fun _ => pad; trace := []; nreads := 0;
     line := fun k _ => nth k levels Arduino.HIGH |}.

(** The wiring of the header's usage example: pulse on pin 8, data on pin
    12, latch on pin 7. *)
Definition example_pad (mask : Z) : K15_NESPad :=
  {| buttonMask := mask; pulsePin := 8; dataPin := 12; latchPin := 7 |}.

(** The levels a pad presents when the buttons of [mask] are held: sample
    [i] is [LOW] exactly when bit [i] of [mask] is set. *)
Definition levels_of_mask (mask : Z) : list Z :=
  map (fun i => if Z.testbit mask (Z.of_nat i) then Arduino.LOW else Arduino.HIGH) (seq 0 8).

(** The mask a poll leaves in the reader at address 0. *)
Definition polled_mask (s : Machine) : Z :=
  buttonMask (heap (snd (K15_NESPollButtons Arduino.HIGH Arduino.LOW (Some 0%nat) s)) 0%nat).

(** ** Vocabulary for sequences of calls *)

(** The integer that a list of 0/1 answers spells, least significant
    first. *)
Fixpoint weigh (answers : list Z) : Z :=
  match answers with
  | [] => 0
  | x :: rest => x + 2 * weigh rest
  end.

(** The answers of [K15_NESButtonPressed] for the 8 flags, in their order. *)
Definition pressed_answers (p_Pad : ptr) (s : Machine) : list Z :=
  map (fun flag => fst (K15_NESButtonPressed p_Pad flag s)) K15_NESPadButton_all.


(** [K15_NESInitPad] followed by [K15_NESPollButtons] on the same reader,
    as in the [setup] and [loop] of a sketch. *)
Definition init_then_poll (HIGH LOW INPUT OUTPUT : Z) (p_Pad : ptr)
    (p_PulsePin p_DataPin p_LatchPin : Z) : IO unit :=
  K15_NESInitPad INPUT OUTPUT p_Pad p_PulsePin p_DataPin p_LatchPin ;;
  K15_NESPollButtons HIGH LOW p_Pad.

(** Two polls in a row, of the readers at [a1] and [a2]. *)
Definition poll_both (HIGH LOW : Z) (a1 a2 : nat) : IO unit :=
  K15_NESPollButtons HIGH LOW (Some a1) ;; K15_NESPollButtons HIGH LOW (Some a2).

(** A machine with two readers: the one at address 0 on pins 8/12/7, every
    other address holding one on pins 2/3/4.  Pin 12 presents [levels0] to
    the reads 0, 1, ... and every other pin presents [levels1] to the reads
    8, 9, ... *)
Definition two_readers (levels0 levels1 : list Z) : Machine :=
  {| heap := fun a => if Nat.eqb a 0
                      then example_pad 0
                      else {| buttonMask := 0; pulsePin := 2; dataPin := 3; latchPin := 4 |};
     trace := []; nreads := 0;
     line := fun k pin => if pin =? 12
                          then nth k levels0 Arduino.HIGH
                          else nth (k - 8) levels1 Arduino.HIGH |}.

(** * Properties *)

(** ** Bits *)

Lemma to_uchar_range (z : Z) : uchar_range (to_uchar z).
Proof. unfold uchar_range, to_uchar. apply Z.mod_pos_bound. lia. Qed.

Lemma to_uchar_small (z : Z) : uchar_range z -> to_uchar z = z.
Proof. unfold uchar_range, to_uchar. intros H. apply Z.mod_small. exact H. Qed.

Lemma testbit_set_bit (acc i j : Z) :
  0 <= i ->
  Z.testbit (Z.lor acc (Z.shiftl 1 i)) j = Z.testbit acc j || (j =? i).
Proof.
  intros Hi. rewrite Z.lor_spec, Z.shiftl_1_l, Z.pow2_bits_eqb by exact Hi.
  now rewrite (Z.eqb_sym i j).
Qed.

Lemma acc_loop_testbit (LOW : Z) (n : nat) :
  forall (levels : nat -> Z) (i acc j : Z),
    0 <= i ->
    Z.testbit (acc_loop LOW levels n i acc) j =
    Z.testbit acc j
    || ((i <=? j) && (j <? i + Z.of_nat n) && (levels (Z.to_nat (j - i)) =? LOW)).
Proof.
  induction n as [|n IH]; intros levels i acc j Hi.
  - cbn [acc_loop]. replace (j <? i + Z.of_nat 0) with (j <? i) by (f_equal; lia).
    destruct (i <=? j) eqn:E1, (j <? i) eqn:E2; cbn; try now rewrite orb_false_r.
    apply Z.leb_le in E1. apply Z.ltb_lt in E2. lia.
  - cbn [acc_loop]. rewrite IH by lia.
    destruct (Z.eq_dec j i) as [->|Hne].
    + rewrite Z.sub_diag. cbn [Z.to_nat].
      replace (i + 1 <=? i) with false by (symmetry; apply Z.leb_gt; lia).
      replace (i <=? i) with true by (symmetry; apply Z.leb_le; lia).
      replace (i <? i + Z.of_nat (S n)) with true by (symmetry; apply Z.ltb_lt; lia).
      cbn [andb]. rewrite orb_false_r.
      destruct (levels O =? LOW).
      * rewrite testbit_set_bit by exact Hi. rewrite Z.eqb_refl. now rewrite !orb_true_r.
      * now rewrite orb_false_r.
    + assert (Hacc : Z.testbit (if levels O =? LOW then Z.lor acc (Z.shiftl 1 i) else acc) j
                     = Z.testbit acc j).
      { destruct (levels O =? LOW); [|reflexivity].
        rewrite testbit_set_bit by exact Hi.
        replace (j =? i) with false by (symmetry; apply Z.eqb_neq; exact Hne).
        apply orb_false_r. }
      rewrite Hacc. f_equal.
      replace (i + 1 + Z.of_nat n) with (i + Z.of_nat (S n)) by lia.
      destruct (Z.le_gt_cases (i + 1) j) as [Hle|Hgt].
      * replace (i + 1 <=? j) with true by (symmetry; apply Z.leb_le; lia).
        replace (i <=? j) with true by (symmetry; apply Z.leb_le; lia).
        replace (S (Z.to_nat (j - (i + 1)))) with (Z.to_nat (j - i)) by lia.
        reflexivity.
      * replace (i + 1 <=? j) with false by (symmetry; apply Z.leb_gt; lia).
        replace (i <=? j) with false by (symmetry; apply Z.leb_gt; lia).
        reflexivity.
Qed.

Lemma mask_of_levels_bounds (LOW : Z) (levels : nat -> Z) (n : nat) :
  0 <= mask_of_levels LOW levels n < 2 ^ Z.of_nat n.
Proof.
  induction n as [|n IH]; cbn [mask_of_levels]; [cbn; lia|].
  rewrite Nat2Z.inj_succ, Z.pow_succ_r by lia.
  assert (0 < 2 ^ Z.of_nat n) by (apply Z.pow_pos_nonneg; lia).
  destruct (levels n =? LOW); lia.
Qed.

Lemma testbit_add_pow2 (m n j : Z) :
  0 <= n -> 0 <= m < 2 ^ n ->
  Z.testbit (m + 2 ^ n) j = Z.testbit m j || (j =? n).
Proof.
  intros Hn Hm.
  assert (Hhigh : forall k, n <= k -> Z.testbit m k = false).
  { intros k Hk. destruct (Z.eq_dec m 0) as [->|Hm0]; [apply Z.bits_0|].
    apply Z.bits_above_log2; [lia|].
    apply Z.lt_le_trans with n; [|exact Hk]. apply Z.log2_lt_pow2; lia. }
  assert (Hland : Z.land m (2 ^ n) = 0).
  { apply Z.bits_inj'. intros k Hk. rewrite Z.land_spec, Z.bits_0, Z.pow2_bits_eqb by exact Hn.
    destruct (Z.eqb_spec n k) as [->|_]; [|apply andb_false_r].
    rewrite Hhigh by lia. reflexivity. }
  rewrite Z.add_nocarry_lxor by exact Hland.
  rewrite Z.lxor_spec, Z.pow2_bits_eqb by exact Hn.
  rewrite (Z.eqb_sym n j).
  destruct (Z.eqb_spec j n) as [->|_].
  - rewrite Hhigh by lia. reflexivity.
  - now rewrite xorb_false_r, orb_false_r.
Qed.

Lemma mask_of_levels_testbit (LOW : Z) (levels : nat -> Z) (n : nat) (j : Z) :
  Z.testbit (mask_of_levels LOW levels n) j =
  (0 <=? j) && (j <? Z.of_nat n) && (levels (Z.to_nat j) =? LOW).
Proof.
  induction n as [|n IH]; cbn [mask_of_levels].
  - rewrite Z.bits_0. destruct (0 <=? j) eqn:E1, (j <? Z.of_nat 0) eqn:E2; try reflexivity.
    apply Z.leb_le in E1. apply Z.ltb_lt in E2. lia.
  - destruct (levels n =? LOW) eqn:El.
    + rewrite testbit_add_pow2 by (try lia; apply mask_of_levels_bounds).
      rewrite IH. destruct (Z.eqb_spec j (Z.of_nat n)) as [->|Hne].
      * rewrite Nat2Z.id, El.
        replace (0 <=? Z.of_nat n) with true by (symmetry; apply Z.leb_le; lia).
        replace (Z.of_nat n <? Z.of_nat (S n)) with true by (symmetry; apply Z.ltb_lt; lia).
        now rewrite orb_true_r.
      * rewrite orb_false_r. destruct (Z.lt_ge_cases j (Z.of_nat n)).
        -- replace (j <? Z.of_nat n) with true by (symmetry; apply Z.ltb_lt; lia).
           replace (j <? Z.of_nat (S n)) with true by (symmetry; apply Z.ltb_lt; lia).
           reflexivity.
        -- replace (j <? Z.of_nat n) with false by (symmetry; apply Z.ltb_ge; lia).
           replace (j <? Z.of_nat (S n)) with false by (symmetry; apply Z.ltb_ge; lia).
           reflexivity.
    + rewrite Z.add_0_r, IH. destruct (Z.eqb_spec j (Z.of_nat n)) as [->|Hne].
      * rewrite Nat2Z.id, El. now rewrite !andb_false_r.
      * destruct (Z.lt_ge_cases j (Z.of_nat n)).
        -- replace (j <? Z.of_nat n) with true by (symmetry; apply Z.ltb_lt; lia).
           replace (j <? Z.of_nat (S n)) with true by (symmetry; apply Z.ltb_lt; lia).
           reflexivity.
        -- replace (j <? Z.of_nat n) with false by (symmetry; apply Z.ltb_ge; lia).
           replace (j <? Z.of_nat (S n)) with false by (symmetry; apply Z.ltb_ge; lia).
           reflexivity.
Qed.

(** The loop's accumulator, started at index 0 with an empty mask, is the
    mask of the levels it read. *)
Lemma acc_loop_mask (LOW : Z) (levels : nat -> Z) (n : nat) :
  acc_loop LOW levels n 0 0 = mask_of_levels LOW levels n.
Proof.
  apply Z.bits_inj. intros j.
  rewrite acc_loop_testbit by lia. rewrite mask_of_levels_testbit.
  rewrite Z.bits_0, Z.sub_0_r, Z.add_0_l. reflexivity.
Qed.

Lemma acc_loop_ext (LOW : Z) (n : nat) :
  forall (f g : nat -> Z) (i acc : Z),
    (forall k, (k < n)%nat -> f k = g k) ->
    acc_loop LOW f n i acc = acc_loop LOW g n i acc.
Proof.
  induction n as [|n IH]; intros f g i acc Hfg; cbn [acc_loop]; [reflexivity|].
  rewrite (Hfg O) by lia. apply IH. intros k Hk. apply Hfg. lia.
Qed.

(** ** Running the program *)

Lemma advance_advance (s : Machine) (e1 e2 : list Event) (n1 n2 : nat) :
  advance (advance s e1 n1) e2 n2 = advance s (e1 ++ e2) (n1 + n2).
Proof.
  unfold advance; cbn [heap trace nreads line].
  now rewrite <- app_assoc, Nat.add_assoc.
Qed.

Lemma advance_nil (s : Machine) : advance s [] 0 = s.
Proof.
  destruct s as [h t n l]. unfold advance; cbn [heap trace nreads line].
  now rewrite app_nil_r, Nat.add_0_r.
Qed.

Section Runs.

Variables HIGH LOW : Z.

Lemma poll_body_run (a : nat) (i acc : Z) (s : Machine) :
  poll_body HIGH LOW a i acc s =
  (if sampled s a 0 =? LOW then Z.lor acc (Z.shiftl 1 i) else acc,
   advance s (sample_events HIGH LOW (heap s a)) 1).
Proof.
  unfold poll_body, bind, load, digitalRead, digitalWrite, emit, ret, sampled, advance,
    sample_events.
  cbn [heap trace nreads line]. rewrite Nat.add_0_r, Nat.add_1_r, <- !app_assoc.
  reflexivity.
Qed.

Lemma poll_loop_run (n : nat) :
  forall (a : nat) (i acc : Z) (s : Machine),
    i + Z.of_nat n <= 8 ->
    poll_loop HIGH LOW n a i acc s =
    (acc_loop LOW (sampled s a) n i acc,
     advance s (samples_events HIGH LOW (heap s a) n) n).
Proof.
  induction n as [|n IH]; intros a i acc s Hle.
  - cbn [poll_loop acc_loop]. unfold ret, samples_events. cbn [repeat concat].
    now rewrite advance_nil.
  - cbn [poll_loop acc_loop].
    replace (i <? 8) with true by (symmetry; apply Z.ltb_lt; lia).
    unfold bind at 1. rewrite poll_body_run. rewrite IH by lia.
    rewrite advance_advance. f_equal.
    apply acc_loop_ext. intros k _. unfold sampled, advance; cbn [heap trace nreads line].
    f_equal. lia.
Qed.

(** The loop stops on its own guard: fuel beyond the 8 iterations is not
    used. *)
Lemma poll_loop_fuel (n k : nat) :
  forall (a : nat) (i acc : Z) (s : Machine),
    i + Z.of_nat n = 8 ->
    poll_loop HIGH LOW (n + k) a i acc s = poll_loop HIGH LOW n a i acc s.
Proof.
  induction n as [|n IH]; intros a i acc s Hi.
  - replace i with 8 by lia. destruct k; reflexivity.
  - cbn [Nat.add poll_loop].
    replace (i <? 8) with true by (symmetry; apply Z.ltb_lt; lia).
    unfold bind. destruct (poll_body HIGH LOW a i acc s) as [acc' s'].
    apply IH. lia.
Qed.

Lemma poll_latch_run (a : nat) (s : Machine) :
  poll_latch HIGH LOW a s = (tt, advance s (latch_events HIGH LOW (heap s a)) 0).
Proof.
  unfold poll_latch, bind, load, digitalWrite, delayMicroseconds, emit, advance,
    latch_events.
  cbn [heap trace nreads line]. now rewrite Nat.add_0_r, <- !app_assoc.
Qed.

Lemma poll_midway_run (a : nat) (k : nat) (s : Machine) :
  (k <= 8)%nat ->
  poll_midway HIGH LOW a k s =
  (mask_of_levels LOW (sampled s a) k,
   advance s (latch_events HIGH LOW (heap s a) ++ samples_events HIGH LOW (heap s a) k) k).
Proof.
  intros Hk. unfold poll_midway, bind. rewrite poll_latch_run.
  rewrite poll_loop_run by lia. rewrite advance_advance. cbn [Nat.add].
  f_equal. rewrite <- acc_loop_mask. apply acc_loop_ext. intros j _.
  unfold sampled, advance; cbn [heap trace nreads line]. f_equal. lia.
Qed.

(** The whole of [K15_NESPollButtons] on a non-null reader. *)
Lemma poll_run (a : nat) (s : Machine) :
  K15_NESPollButtons HIGH LOW (Some a) s =
  (tt, with_pad (advance s (poll_events HIGH LOW (heap s a)) 8) a
                (set_buttonMask (heap s a) (mask_of_levels LOW (sampled s a) 8))).
Proof.
  assert (E : K15_NESPollButtons HIGH LOW (Some a) s =
              let (m, s1) := poll_midway HIGH LOW a 8 s in store_buttonMask a m s1).
  { unfold K15_NESPollButtons, poll_midway, bind.
    destruct (poll_latch HIGH LOW a s) as [[] s1].
    destruct (poll_loop HIGH LOW 8 a 0 0 s1) as [m s2]. reflexivity. }
  rewrite E, poll_midway_run by lia.
  unfold store_buttonMask, store, with_pad, set_buttonMask, poll_events, advance.
  cbn [heap trace nreads line].
  rewrite to_uchar_small; [reflexivity|].
  pose proof (mask_of_levels_bounds LOW (sampled s a) 8) as H.
  unfold uchar_range. change (2 ^ Z.of_nat 8) with 256 in H. exact H.
Qed.

End Runs.

Lemma poll_split (HIGH LOW : Z) (a : nat) (s : Machine) :
  K15_NESPollButtons HIGH LOW (Some a) s =
  store_buttonMask a (fst (poll_midway HIGH LOW a 8 s)) (snd (poll_midway HIGH LOW a 8 s)).
Proof.
  unfold K15_NESPollButtons, poll_midway, bind.
  destruct (poll_latch HIGH LOW a s) as [[] s1].
  destruct (poll_loop HIGH LOW 8 a 0 0 s1) as [m s2]. reflexivity.
Qed.

Lemma poll_loop_heap (HIGH LOW : Z) (n : nat) :
  forall (a : nat) (i acc : Z) (s : Machine),
    heap (snd (poll_loop HIGH LOW n a i acc s)) = heap s.
Proof.
  induction n as [|n IH]; intros a i acc s; cbn [poll_loop]; [reflexivity|].
  destruct (i <? 8); [|reflexivity].
  unfold bind. rewrite poll_body_run. rewrite IH. reflexivity.
Qed.

Lemma poll_midway_heap (HIGH LOW : Z) (a : nat) (k : nat) (s : Machine) :
  heap (snd (poll_midway HIGH LOW a k s)) = heap s.
Proof.
  unfold poll_midway, bind. rewrite poll_latch_run. rewrite poll_loop_heap. reflexivity.
Qed.

(** *** [K15_NESInitPad] *)

Section Init.

Variables INPUT OUTPUT : Z.
Variables (a : nat) (p_PulsePin p_DataPin p_LatchPin : Z) (s : Machine).

Local Abbreviation s' :=
  (snd (K15_NESInitPad INPUT OUTPUT (Some a) p_PulsePin p_DataPin p_LatchPin s)).

Lemma init_heap_at :
  heap s' a = {| buttonMask := 0; pulsePin := to_uchar p_PulsePin;
                 dataPin := to_uchar p_DataPin; latchPin := to_uchar p_LatchPin |}.
Proof.
  unfold K15_NESInitPad, bind, store_buttonMask, store_pulsePin, store_dataPin,
    store_latchPin, store, pinMode, emit.
  cbn [heap trace nreads line snd]. rewrite !Nat.eqb_refl.
  cbn [buttonMask pulsePin dataPin latchPin]. reflexivity.
Qed.

Lemma init_heap_other (a' : nat) : a' <> a -> heap s' a' = heap s a'.
Proof.
  intros Hne. apply Nat.eqb_neq in Hne.
  unfold K15_NESInitPad, bind, store_buttonMask, store_pulsePin, store_dataPin,
    store_latchPin, store, pinMode, emit.
  cbn [heap trace nreads line snd]. rewrite !Hne. reflexivity.
Qed.

Lemma init_trace :
  trace s' = trace s ++ [ EvPinMode p_DataPin INPUT; EvPinMode p_PulsePin OUTPUT;
                          EvPinMode p_LatchPin OUTPUT ].
Proof.
  unfold K15_NESInitPad, bind, store_buttonMask, store_pulsePin, store_dataPin,
    store_latchPin, store, pinMode, emit.
  cbn [heap trace nreads line snd]. now rewrite <- !app_assoc.
Qed.

Lemma init_reads : nreads s' = nreads s /\ line s' = line s.
Proof. split; reflexivity. Qed.

End Init.

(** *** [K15_NESButtonPressed] *)

Lemma pressed_run (a : nat) (b : Z) (s : Machine) :
  K15_NESButtonPressed (Some a) b s =
  (if Z.land (buttonMask (heap s a)) b >? 0 then 1 else 0, s).
Proof. reflexivity. Qed.

Lemma land_uchar_nonneg (m b : Z) : uchar_range m -> 0 <= Z.land m b.
Proof. intros [H _]. apply Z.land_nonneg. left. exact H. Qed.

Lemma pressed_value (m b : Z) :
  uchar_range m ->
  (if Z.land m b >? 0 then 1 else 0) = (if Z.land m b =? 0 then 0 else 1).
Proof.
  intros Hm. pose proof (land_uchar_nonneg m b Hm) as Hge.
  destruct (Z.gtb_spec (Z.land m b) 0), (Z.eqb_spec (Z.land m b) 0); lia.
Qed.

Lemma uchar_high_bits (m i : Z) : uchar_range m -> 8 <= i -> Z.testbit m i = false.
Proof.
  intros [Hlo Hhi] Hi. destruct (Z.eq_dec m 0) as [->|Hm]; [apply Z.bits_0|].
  apply Z.bits_above_log2; [exact Hlo|].
  apply Z.lt_le_trans with 8; [|exact Hi].
  apply Z.log2_lt_pow2; [lia|]. change (2 ^ 8) with 256. exact Hhi.
Qed.

Lemma land_pow2 (m i : Z) :
  0 <= i -> Z.land m (2 ^ i) = if Z.testbit m i then 2 ^ i else 0.
Proof.
  intros Hi. apply Z.bits_inj'. intros k Hk.
  rewrite Z.land_spec, Z.pow2_bits_eqb by exact Hi.
  destruct (Z.eqb_spec i k) as [->|Hne].
  - destruct (Z.testbit m k) eqn:E.
    + now rewrite Z.pow2_bits_true.
    + now rewrite Z.bits_0.
  - rewrite andb_false_r. destruct (Z.testbit m i).
    + rewrite Z.pow2_bits_false by lia. reflexivity.
    + now rewrite Z.bits_0.
Qed.

Lemma pressed_pow2 (m i : Z) :
  0 <= i ->
  (if Z.land m (2 ^ i) >? 0 then 1 else 0) = Z.b2z (Z.testbit m i).
Proof.
  intros Hi. rewrite land_pow2 by exact Hi.
  assert (0 < 2 ^ i) by (apply Z.pow_pos_nonneg; lia).
  destruct (Z.testbit m i); cbn [Z.b2z].
  - destruct (Z.gtb_spec (2 ^ i) 0); lia.
  - reflexivity.
Qed.

(** A non-zero [Z.land] is a common set bit. *)
Lemma land_nonzero_common_bit (m b : Z) :
  Z.land m b <> 0 <-> exists i, 0 <= i /\ Z.testbit b i = true /\ Z.testbit m i = true.
Proof.
  split.
  - intros Hne.
    destruct (Z.lt_trichotomy (Z.land m b) 0) as [Hneg|[Hz|Hpos]]; [|contradiction|].
    + (* negative: both operands are negative, so all their high bits are set *)
      apply Z.land_neg in Hneg. destruct Hneg as [Hm Hb].
      destruct (proj1 (Z.bits_iff_neg_ex m) Hm) as [km Hkm].
      destruct (proj1 (Z.bits_iff_neg_ex b) Hb) as [kb Hkb].
      exists (Z.max 0 (Z.max km kb) + 1). repeat split; [lia| |].
      * apply Hkb. lia.
      * apply Hkm. lia.
    + exists (Z.log2 (Z.land m b)).
      pose proof (Z.bit_log2 (Z.land m b) Hpos) as Hbit.
      rewrite Z.land_spec in Hbit. apply andb_true_iff in Hbit. destruct Hbit as [Hbm Hbb].
      repeat split; [apply Z.log2_nonneg|exact Hbb|exact Hbm].
  - intros (i & Hi & Hb & Hm) E.
    assert (Hbit : Z.testbit (Z.land m b) i = true) by (rewrite Z.land_spec, Hb, Hm; reflexivity).
    rewrite E, Z.bits_0 in Hbit. discriminate.
Qed.

(** * The claims *)

(** ** The mask a poll stores *)

(** C1. After [K15_NESPollButtons] on a non-null reader, [buttonMask] is the
    8-bit integer whose bit [i] (0..7, in sampling order) is set exactly
    when the [i]-th level read from the data pin was [LOW]: it equals the
    sum of the [2^i] of the low samples, it fits in 8 bits, and its bit [i]
    is set iff [0 <= i < 8] and sample [i] was [LOW]. *)
Theorem poll_mask_is_low_samples (HIGH LOW : Z) (a : nat) (s : Machine) :
  buttonMask (heap (snd (K15_NESPollButtons HIGH LOW (Some a) s)) a)
  = mask_of_levels LOW (sampled s a) 8
  /\ uchar_range (buttonMask (heap (snd (K15_NESPollButtons HIGH LOW (Some a) s)) a))
  /\ forall i : Z,
       Z.testbit (buttonMask (heap (snd (K15_NESPollButtons HIGH LOW (Some a) s)) a)) i
       = (0 <=? i) && (i <? 8) && (sampled s a (Z.to_nat i) =? LOW).
Proof.
  rewrite poll_run. unfold with_pad, set_buttonMask.
  cbn [snd heap buttonMask]. rewrite Nat.eqb_refl. cbn [buttonMask].
  split; [reflexivity|]. split.
  - pose proof (mask_of_levels_bounds LOW (sampled s a) 8) as H.
    change (2 ^ Z.of_nat 8) with 256 in H. exact H.
  - intros i. apply mask_of_levels_testbit.
Qed.

(** All 256 patterns of held buttons, on the concrete platform: polling a
    pad that presents the levels of [m] stores [m], whatever the reader
    held before. *)
Example poll_all_masks :
  forallb (fun m => polled_mask (machine_of (example_pad 0xA5) (levels_of_mask m)) =? m)
          (map Z.of_nat (seq 0 256)) = true.
Proof. vm_compute. reflexivity. Qed.

Example poll_all_high :
  polled_mask (machine_of (example_pad 0x3C) [1; 1; 1; 1; 1; 1; 1; 1]) = 0x00.
Proof. vm_compute. reflexivity. Qed.

Example poll_all_low :
  polled_mask (machine_of (example_pad 0x3C) [0; 0; 0; 0; 0; 0; 0; 0]) = 0xFF.
Proof. vm_compute. reflexivity. Qed.

Example poll_alternating :
  polled_mask (machine_of (example_pad 0) [1; 0; 1; 0; 1; 0; 1; 0]) = 0xAA
  /\ polled_mask (machine_of (example_pad 0) [0; 1; 0; 1; 0; 1; 0; 1]) = 0x55.
Proof. split; vm_compute; reflexivity. Qed.

Example poll_single_bits :
  map (fun i => polled_mask (machine_of (example_pad 0)
                               (map (fun k => if Nat.eqb k i then 0 else 1) (seq 0 8))))
      (seq 0 8)
  = [0x01; 0x02; 0x04; 0x08; 0x10; 0x20; 0x40; 0x80].
Proof. vm_compute. reflexivity. Qed.

(** ** The pin protocol of a poll *)

Lemma falling_edges_latch_events (HIGH LOW : Z) (pad : K15_NESPad) (prev : option Z) :
  HIGH <> LOW ->
  falling_edges HIGH LOW (latchPin pad) prev (latch_events HIGH LOW pad) = 1%nat.
Proof.
  intros Hlv. apply Z.eqb_neq in Hlv.
  unfold latch_events. cbn [falling_edges]. rewrite !Z.eqb_refl, Hlv.
  destruct prev; rewrite ?andb_false_r; reflexivity.
Qed.

Lemma falling_edges_other_pin (HIGH LOW : Z) (pin : Z) (pad : K15_NESPad) (prev : option Z) :
  latchPin pad <> pin ->
  falling_edges HIGH LOW pin prev (latch_events HIGH LOW pad) = 0%nat
  /\ driven pin prev (latch_events HIGH LOW pad) = prev.
Proof.
  intros Hne. apply Z.eqb_neq in Hne.
  unfold latch_events. cbn [falling_edges driven]. rewrite !Hne. split; reflexivity.
Qed.

Lemma falling_edges_samples (HIGH LOW : Z) (pad : K15_NESPad) (n : nat) :
  HIGH <> LOW ->
  forall prev : option Z,
    falling_edges HIGH LOW (pulsePin pad) prev (samples_events HIGH LOW pad n) = n.
Proof.
  intros Hlv. apply Z.eqb_neq in Hlv. unfold samples_events.
  induction n as [|n IH]; intros prev; cbn [repeat concat]; [reflexivity|].
  unfold sample_events at 1. cbn [app falling_edges]. rewrite !Z.eqb_refl, Hlv.
  rewrite IH. destruct prev; rewrite ?andb_false_r; reflexivity.
Qed.

Lemma falling_edges_samples_other (HIGH LOW : Z) (pin : Z) (pad : K15_NESPad) (n : nat) :
  pulsePin pad <> pin ->
  forall prev : option Z,
    falling_edges HIGH LOW pin prev (samples_events HIGH LOW pad n) = 0%nat.
Proof.
  intros Hne. apply Z.eqb_neq in Hne. unfold samples_events.
  induction n as [|n IH]; intros prev; cbn [repeat concat]; [reflexivity|].
  unfold sample_events at 1. cbn [app falling_edges]. rewrite !Hne. apply IH.
Qed.

Lemma falling_edges_app (HIGH LOW : Z) (pin : Z) (tr1 tr2 : list Event) :
  forall prev : option Z,
    falling_edges HIGH LOW pin prev (tr1 ++ tr2)
    = (falling_edges HIGH LOW pin prev tr1
       + falling_edges HIGH LOW pin (driven pin prev tr1) tr2)%nat.
Proof.
  induction tr1 as [|e tr1 IH]; intros prev; cbn [app falling_edges driven]; [reflexivity|].
  destruct e as [p m|p l|p|us]; try apply IH.
  destruct (p =? pin); [|apply IH]. rewrite IH. apply Nat.add_assoc.
Qed.

Lemma reads_of_samples (HIGH LOW : Z) (pad : K15_NESPad) (n : nat) :
  reads_of (dataPin pad) (samples_events HIGH LOW pad n) = n.
Proof.
  unfold reads_of, samples_events.
  induction n as [|n IH]; cbn [repeat concat]; [reflexivity|].
  unfold sample_events at 1. cbn [app filter]. rewrite Z.eqb_refl. cbn [length].
  now rewrite IH.
Qed.

(** C2. One call of [K15_NESPollButtons] on a non-null reader issues exactly
    these platform calls, in this order: a write of [HIGH] then a write of
    [LOW] to the latch pin, a wait of 6 microseconds, then 8 times a read
    of the data pin followed by a write of [HIGH] then of [LOW] to the
    pulse pin; it reads the data pin 8 times.  In particular, with
    [HIGH <> LOW] and the latch and pulse pins distinct: the latch pin makes
    exactly one high-to-low transition, in the first three calls, where the
    pulse pin is not written at all; the pulse pin makes exactly 8
    high-to-low transitions, the latch pin none, in what follows; and the
    first sample is read (call 3) before the pulse pin is first written
    (call 4). *)
Theorem poll_io_sequence (HIGH LOW : Z) (a : nat) (s : Machine) :
  trace (snd (K15_NESPollButtons HIGH LOW (Some a) s))
  = trace s
    ++ [ EvDigitalWrite (latchPin (heap s a)) HIGH;
         EvDigitalWrite (latchPin (heap s a)) LOW;
         EvDelayMicroseconds 6 ]
    ++ concat (repeat [ EvDigitalRead (dataPin (heap s a));
                        EvDigitalWrite (pulsePin (heap s a)) HIGH;
                        EvDigitalWrite (pulsePin (heap s a)) LOW ] 8)
  /\ nreads (snd (K15_NESPollButtons HIGH LOW (Some a) s)) = (nreads s + 8)%nat
  /\ reads_of (dataPin (heap s a)) (samples_events HIGH LOW (heap s a) 8) = 8%nat
  /\ nth_error (poll_events HIGH LOW (heap s a)) 3 = Some (EvDigitalRead (dataPin (heap s a)))
  /\ nth_error (poll_events HIGH LOW (heap s a)) 4
     = Some (EvDigitalWrite (pulsePin (heap s a)) HIGH)
  /\ (HIGH <> LOW -> latchPin (heap s a) <> pulsePin (heap s a) ->
      forall latch0 pulse0 : option Z,
        falling_edges HIGH LOW (latchPin (heap s a)) latch0
                      (latch_events HIGH LOW (heap s a)) = 1%nat
        /\ falling_edges HIGH LOW (pulsePin (heap s a)) pulse0
                         (latch_events HIGH LOW (heap s a)) = 0%nat
        /\ driven (pulsePin (heap s a)) pulse0 (latch_events HIGH LOW (heap s a)) = pulse0
        /\ falling_edges HIGH LOW (pulsePin (heap s a)) pulse0
                         (samples_events HIGH LOW (heap s a) 8) = 8%nat
        /\ falling_edges HIGH LOW (latchPin (heap s a)) latch0
                         (poll_events HIGH LOW (heap s a)) = 1%nat
        /\ falling_edges HIGH LOW (pulsePin (heap s a)) pulse0
                         (poll_events HIGH LOW (heap s a)) = 8%nat).
Proof.
  rewrite poll_run. unfold with_pad, advance. cbn [snd trace nreads].
  split; [reflexivity|]. split; [reflexivity|].
  split; [apply reads_of_samples|]. split; [reflexivity|]. split; [reflexivity|].
  intros Hlv Hpins latch0 pulse0.
  destruct (falling_edges_other_pin HIGH LOW (pulsePin (heap s a)) (heap s a) pulse0 Hpins)
    as [Hnone Hkept].
  repeat split.
  - now apply falling_edges_latch_events.
  - exact Hnone.
  - exact Hkept.
  - now apply falling_edges_samples.
  - unfold poll_events. rewrite falling_edges_app.
    rewrite falling_edges_latch_events by exact Hlv.
    rewrite falling_edges_samples_other by (intros E; apply Hpins; symmetry; exact E).
    reflexivity.
  - unfold poll_events. rewrite falling_edges_app, Hnone, Hkept.
    now apply falling_edges_samples.
Qed.

(** The protocol on the wiring of the header's example, on the Arduino
    levels. *)
Lemma poll_io_sequence_witness :
  trace (snd (K15_NESPollButtons Arduino.HIGH Arduino.LOW (Some 0%nat)
                (machine_of (example_pad 0) [])))
  = [ EvDigitalWrite 7 1; EvDigitalWrite 7 0; EvDelayMicroseconds 6;
      EvDigitalRead 12; EvDigitalWrite 8 1; EvDigitalWrite 8 0;
      EvDigitalRead 12; EvDigitalWrite 8 1; EvDigitalWrite 8 0;
      EvDigitalRead 12; EvDigitalWrite 8 1; EvDigitalWrite 8 0;
      EvDigitalRead 12; EvDigitalWrite 8 1; EvDigitalWrite 8 0;
      EvDigitalRead 12; EvDigitalWrite 8 1; EvDigitalWrite 8 0;
      EvDigitalRead 12; EvDigitalWrite 8 1; EvDigitalWrite 8 0;
      EvDigitalRead 12; EvDigitalWrite 8 1; EvDigitalWrite 8 0;
      EvDigitalRead 12; EvDigitalWrite 8 1; EvDigitalWrite 8 0 ]
  /\ falling_edges Arduino.HIGH Arduino.LOW 7 None
       (poll_events Arduino.HIGH Arduino.LOW (example_pad 0)) = 1%nat
  /\ falling_edges Arduino.HIGH Arduino.LOW 8 None
       (poll_events Arduino.HIGH Arduino.LOW (example_pad 0)) = 8%nat.
Proof.
  pose proof (poll_io_sequence Arduino.HIGH Arduino.LOW 0 (machine_of (example_pad 0) []))
    as (Htrace & _ & _ & _ & _ & Hedges).
  split; [exact Htrace|].
  assert (Hlv : Arduino.HIGH <> Arduino.LOW) by discriminate.
  assert (Hpins : latchPin (heap (machine_of (example_pad 0) []) 0%nat)
                  <> pulsePin (heap (machine_of (example_pad 0) []) 0%nat)) by discriminate.
  destruct (Hedges Hlv Hpins None None) as (_ & _ & _ & _ & Hlatch & Hpulse).
  split; [exact Hlatch | exact Hpulse].
Defined.

(** ** Querying the mask *)

Lemma pressed_flags (m : Z) :
  map (fun b => if Z.land m b >? 0 then 1 else 0) K15_NESPadButton_all
  = map (fun i => Z.b2z (Z.testbit m (Z.of_nat i))) (seq 0 8).
Proof.
  unfold K15_NESPadButton_all. cbn [map seq].
  repeat (apply f_equal2; [match goal with
                    | |- _ = Z.b2z (Z.testbit _ (Z.of_nat ?i)) =>
                        exact (pressed_pow2 m (Z.of_nat i) (Nat2Z.is_nonneg i))
                    end|]).
  reflexivity.
Qed.

(** C3. On a non-null reader, [K15_NESButtonPressed] returns 1 (true) when
    [buttonMask & button] is non-zero and 0 (false) otherwise, and hands
    back the machine it was given: no pin I/O, no change of memory.  For
    the 8 button flags, in their order, the result is bit 0, 1, ..., 7 of
    [buttonMask]: no other bit of the mask takes part in it. *)
Theorem button_pressed_reads_mask (a : nat) (b : Z) (s : Machine) :
  uchar_range (buttonMask (heap s a)) ->
  K15_NESButtonPressed (Some a) b s
  = (if Z.land (buttonMask (heap s a)) b =? 0 then 0 else 1, s)
  /\ map (fun flag => fst (K15_NESButtonPressed (Some a) flag s)) K15_NESPadButton_all
     = map (fun i => Z.b2z (Z.testbit (buttonMask (heap s a)) (Z.of_nat i))) (seq 0 8).
Proof.
  intros Hm. split.
  - rewrite pressed_run. now rewrite pressed_value.
  - apply pressed_flags.
Qed.

(** With mask 0b00010001, A and Up are pressed and the six others are not. *)
Lemma button_pressed_reads_mask_witness :
  uchar_range (buttonMask (heap (machine_of (example_pad 0x11) []) 0%nat))
  /\ map (fun flag => fst (K15_NESButtonPressed (Some 0%nat) flag
                             (machine_of (example_pad 0x11) [])))
         [ K15_NESPadButton_A; K15_NESPadButton_B; K15_NESPadButton_Select;
           K15_NESPadButton_Start; K15_NESPadButton_Up; K15_NESPadButton_Down;
           K15_NESPadButton_Left; K15_NESPadButton_Right ]
     = [1; 0; 0; 0; 1; 0; 0; 0]
  /\ snd (K15_NESButtonPressed (Some 0%nat) K15_NESPadButton_Up
            (machine_of (example_pad 0x11) []))
     = machine_of (example_pad 0x11) [].
Proof.
  assert (Hm : uchar_range (buttonMask (heap (machine_of (example_pad 0x11) []) 0%nat)))
    by (unfold uchar_range; cbn; lia).
  split; [exact Hm|].
  destruct (button_pressed_reads_mask 0 K15_NESPadButton_Up
              (machine_of (example_pad 0x11) []) Hm) as [Hrun Hflags].
  split.
  - exact Hflags.
  - rewrite Hrun. reflexivity.
Defined.

(** C10. On a non-null reader and for any [button] argument, single flag or
    not, [K15_NESButtonPressed] returns 1 exactly when some bit (one of
    bits 0..7) is set both in [button] and in [buttonMask], and it returns
    0 or 1 and nothing else. *)
Theorem button_pressed_any_of (a : nat) (b : Z) (s : Machine) :
  uchar_range (buttonMask (heap s a)) ->
  (fst (K15_NESButtonPressed (Some a) b s) = 1
   <-> exists i, 0 <= i < 8 /\ Z.testbit b i = true
                 /\ Z.testbit (buttonMask (heap s a)) i = true)
  /\ (fst (K15_NESButtonPressed (Some a) b s) <> 0
      <-> fst (K15_NESButtonPressed (Some a) b s) = 1)
  /\ (fst (K15_NESButtonPressed (Some a) b s) = 0
      \/ fst (K15_NESButtonPressed (Some a) b s) = 1).
Proof.
  intros Hm. rewrite pressed_run. cbn [fst]. rewrite pressed_value by exact Hm.
  split; [|split].
  - destruct (Z.eqb_spec (Z.land (buttonMask (heap s a)) b) 0) as [E|Hne].
    + split; [discriminate|].
      intros (i & Hi & Hb & Hbit). exfalso.
      apply (proj2 (land_nonzero_common_bit (buttonMask (heap s a)) b));
        [exists i; repeat split; [lia|exact Hb|exact Hbit] | exact E].
    + split; [intros _|reflexivity].
      apply land_nonzero_common_bit in Hne. destruct Hne as (i & Hi & Hb & Hbit).
      exists i. repeat split; try assumption.
      destruct (Z.lt_ge_cases i 8) as [Hlt|Hge]; [exact Hlt|].
      rewrite (uchar_high_bits _ i Hm) in Hbit by lia. discriminate.
  - destruct (Z.land (buttonMask (heap s a)) b =? 0); split; congruence.
  - destruct (Z.land (buttonMask (heap s a)) b =? 0); [left|right]; reflexivity.
Qed.

(** Asking for "A or B" (0x03) while only B is held answers 1; asking for
    "A or Select" (0x05) answers 0. *)
Lemma button_pressed_any_of_witness :
  fst (K15_NESButtonPressed (Some 0%nat) 0x03 (machine_of (example_pad 0x02) [])) = 1
  /\ fst (K15_NESButtonPressed (Some 0%nat) 0x05 (machine_of (example_pad 0x02) [])) = 0.
Proof.
  assert (Hm : uchar_range (buttonMask (heap (machine_of (example_pad 0x02) []) 0%nat)))
    by (unfold uchar_range; cbn; lia).
  split.
  - apply (proj1 (button_pressed_any_of 0 0x03 (machine_of (example_pad 0x02) []) Hm)).
    exists 1. split; [lia|split; reflexivity].
  - reflexivity.
Defined.

(** ** Null readers *)

(** C5. On a null reader the three operations return at once with the
    machine untouched (no pin I/O, no write to memory):
    [K15_NESInitPad] and [K15_NESPollButtons] do nothing and
    [K15_NESButtonPressed] returns 0. *)
Theorem null_reader_is_noop (HIGH LOW INPUT OUTPUT : Z)
    (p_PulsePin p_DataPin p_LatchPin p_Button : Z) (s : Machine) :
  K15_NESInitPad INPUT OUTPUT NULL p_PulsePin p_DataPin p_LatchPin s = (tt, s)
  /\ K15_NESPollButtons HIGH LOW NULL s = (tt, s)
  /\ K15_NESButtonPressed NULL p_Button s = (0, s).
Proof. repeat split. Qed.

(** ** Initialisation *)

(** C6. Right after [K15_NESInitPad], with no poll in between,
    [K15_NESButtonPressed] returns 0 for each of the 8 button flags (and
    for any other argument), on a null reader as on a non-null one; on a
    non-null reader the mask is 0. *)
Theorem no_button_pressed_after_init (INPUT OUTPUT : Z) (p_Pad : ptr)
    (p_PulsePin p_DataPin p_LatchPin : Z) (s : Machine) :
  map (fun flag =>
         fst (K15_NESButtonPressed p_Pad flag
                (snd (K15_NESInitPad INPUT OUTPUT p_Pad p_PulsePin p_DataPin p_LatchPin s))))
      K15_NESPadButton_all
  = [0; 0; 0; 0; 0; 0; 0; 0]
  /\ (forall b : Z,
        fst (K15_NESButtonPressed p_Pad b
               (snd (K15_NESInitPad INPUT OUTPUT p_Pad p_PulsePin p_DataPin p_LatchPin s)))
        = 0)
  /\ (forall a : nat,
        buttonMask (heap (snd (K15_NESInitPad INPUT OUTPUT (Some a)
                                 p_PulsePin p_DataPin p_LatchPin s)) a) = 0).
Proof.
  assert (Hall : forall b : Z,
             fst (K15_NESButtonPressed p_Pad b
                    (snd (K15_NESInitPad INPUT OUTPUT p_Pad p_PulsePin p_DataPin p_LatchPin s)))
             = 0).
  { intros b. destruct p_Pad as [a|]; [|reflexivity].
    rewrite pressed_run, init_heap_at. cbn [fst buttonMask]. now rewrite Z.land_0_l. }
  split; [|split].
  - unfold K15_NESPadButton_all. cbn [map]. now rewrite !Hall.
  - exact Hall.
  - intros a. now rewrite init_heap_at.
Qed.

(** ** What a poll writes *)

(** C7. [K15_NESPollButtons] on a non-null reader changes memory in one
    place only, the [buttonMask] field of that reader: the pin fields keep
    their values and every other struct is left alone.  None of the
    platform calls touches memory, and after the latch pulse and any number
    of turns of the loop memory is still what it was before the poll; the
    poll then ends with one assignment of the whole accumulated value to
    [buttonMask].  [K15_NESButtonPressed] returns the machine unchanged. *)
Theorem poll_writes_only_buttonMask (HIGH LOW : Z) (a : nat) (s : Machine) :
  (forall a' : nat,
     heap (snd (K15_NESPollButtons HIGH LOW (Some a) s)) a'
     = if Nat.eqb a' a
       then {| buttonMask := mask_of_levels LOW (sampled s a) 8;
               pulsePin := pulsePin (heap s a);
               dataPin := dataPin (heap s a);
               latchPin := latchPin (heap s a) |}
       else heap s a')
  /\ (forall k : nat, heap (snd (poll_midway HIGH LOW a k s)) = heap s)
  /\ K15_NESPollButtons HIGH LOW (Some a) s
     = store_buttonMask a (fst (poll_midway HIGH LOW a 8 s)) (snd (poll_midway HIGH LOW a 8 s))
  /\ (forall (pin level us : Z) (s0 : Machine),
        heap (snd (digitalWrite pin level s0)) = heap s0
        /\ heap (snd (digitalRead pin s0)) = heap s0
        /\ heap (snd (delayMicroseconds us s0)) = heap s0)
  /\ (forall b : Z, snd (K15_NESButtonPressed (Some a) b s) = s).
Proof.
  split; [|split; [|split; [|split]]].
  - intros a'. rewrite poll_run. reflexivity.
  - intros k. apply poll_midway_heap.
  - apply poll_split.
  - intros pin level us s0. repeat split.
  - intros b. reflexivity.
Qed.

(** ** The button flags *)

(** C8. The 8 button identifiers are A=0x01, B=0x02, Select=0x04,
    Start=0x08, Up=0x10, Down=0x20, Left=0x40, Right=0x80: in that order,
    button number [i] is the flag [2^i].  It selects bit [i] of the mask a
    poll stores: after a poll, asking for button [i] answers 1 exactly when
    sample [i] of that poll was [LOW]. *)
Theorem button_flags_are_poll_bits (HIGH LOW : Z) (a : nat) (s : Machine) :
  (K15_NESPadButton_A = 0x01 /\ K15_NESPadButton_B = 0x02
   /\ K15_NESPadButton_Select = 0x04 /\ K15_NESPadButton_Start = 0x08
   /\ K15_NESPadButton_Up = 0x10 /\ K15_NESPadButton_Down = 0x20
   /\ K15_NESPadButton_Left = 0x40 /\ K15_NESPadButton_Right = 0x80)
  /\ [ K15_NESPadButton_A; K15_NESPadButton_B; K15_NESPadButton_Select;
       K15_NESPadButton_Start; K15_NESPadButton_Up; K15_NESPadButton_Down;
       K15_NESPadButton_Left; K15_NESPadButton_Right ]
     = map (fun i => 2 ^ Z.of_nat i) (seq 0 8)
  /\ map (fun flag =>
            fst (K15_NESButtonPressed (Some a) flag
                   (snd (K15_NESPollButtons HIGH LOW (Some a) s))))
         [ K15_NESPadButton_A; K15_NESPadButton_B; K15_NESPadButton_Select;
           K15_NESPadButton_Start; K15_NESPadButton_Up; K15_NESPadButton_Down;
           K15_NESPadButton_Left; K15_NESPadButton_Right ]
     = map (fun i => if sampled s a i =? LOW then 1 else 0) (seq 0 8).
Proof.
  split; [repeat split|]. split; [reflexivity|].
  change (map (fun flag => fst (K15_NESButtonPressed (Some a) flag
                                  (snd (K15_NESPollButtons HIGH LOW (Some a) s))))
              K15_NESPadButton_all
          = map (fun i => if sampled s a i =? LOW then 1 else 0) (seq 0 8)).
  rewrite poll_run. cbn [snd].
  transitivity (map (fun b => if Z.land (mask_of_levels LOW (sampled s a) 8) b >? 0
                              then 1 else 0) K15_NESPadButton_all).
  { apply map_ext. intros b. rewrite pressed_run. unfold with_pad, set_buttonMask.
    cbn [fst heap]. rewrite Nat.eqb_refl. reflexivity. }
  rewrite pressed_flags. apply map_ext_in. intros i Hi. apply in_seq in Hi.
  rewrite mask_of_levels_testbit, Nat2Z.id.
  replace (0 <=? Z.of_nat i) with true by (symmetry; apply Z.leb_le; lia).
  replace (Z.of_nat i <? Z.of_nat 8) with true by (symmetry; apply Z.ltb_lt; lia).
  cbn [andb]. destruct (sampled s a i =? LOW); reflexivity.
Qed.

(** ** Pin identifiers wider than a byte *)

(** C4, as amended.  On a non-null reader and for any [int] pin arguments,
    [K15_NESInitPad] sets [buttonMask] to 0, stores each pin identifier
    converted to [unsigned char] (its value modulo 256), leaves every other
    struct alone, reads no pin, and configures, in this order, the data pin
    as input and the pulse and latch pins as output, passing [pinMode] the
    arguments as it received them. *)
Theorem init_stores_narrowed_pins (INPUT OUTPUT : Z) (a : nat)
    (p_PulsePin p_DataPin p_LatchPin : Z) (s : Machine) :
  (forall a' : nat,
     heap (snd (K15_NESInitPad INPUT OUTPUT (Some a) p_PulsePin p_DataPin p_LatchPin s)) a'
     = if Nat.eqb a' a
       then {| buttonMask := 0; pulsePin := p_PulsePin mod 256;
               dataPin := p_DataPin mod 256; latchPin := p_LatchPin mod 256 |}
       else heap s a')
  /\ trace (snd (K15_NESInitPad INPUT OUTPUT (Some a) p_PulsePin p_DataPin p_LatchPin s))
     = trace s ++ [ EvPinMode p_DataPin INPUT; EvPinMode p_PulsePin OUTPUT;
                    EvPinMode p_LatchPin OUTPUT ]
  /\ nreads (snd (K15_NESInitPad INPUT OUTPUT (Some a) p_PulsePin p_DataPin p_LatchPin s))
     = nreads s
  /\ pad_in_range
       (heap (snd (K15_NESInitPad INPUT OUTPUT (Some a) p_PulsePin p_DataPin p_LatchPin s)) a).
Proof.
  split; [|split; [|split]].
  - intros a'. destruct (Nat.eqb_spec a' a) as [->|Hne].
    + apply init_heap_at.
    + now apply init_heap_other.
  - apply init_trace.
  - reflexivity.
  - rewrite init_heap_at. unfold pad_in_range. cbn [buttonMask pulsePin dataPin latchPin].
    repeat split; try apply to_uchar_range; lia.
Qed.

(** C4, as stated, fails: asked to use pin 256 for the pulse line, the
    reader holds pin 0. *)
Lemma init_stores_pins_counterexample :
  pulsePin (heap (snd (K15_NESInitPad Arduino.INPUT Arduino.OUTPUT (Some 0%nat) 256 12 7
                         (machine_of (example_pad 0) []))) 0%nat) = 0
  /\ pulsePin (heap (snd (K15_NESInitPad Arduino.INPUT Arduino.OUTPUT (Some 0%nat) 256 12 7
                            (machine_of (example_pad 0) []))) 0%nat) <> 256.
Proof. split; [reflexivity | discriminate]. Qed.

(** Pin identifiers that fit an [unsigned char] are stored as they are. *)
Lemma init_stores_small_pins (INPUT OUTPUT : Z) (a : nat)
    (p_PulsePin p_DataPin p_LatchPin : Z) (s : Machine) :
  uchar_range p_PulsePin -> uchar_range p_DataPin -> uchar_range p_LatchPin ->
  heap (snd (K15_NESInitPad INPUT OUTPUT (Some a) p_PulsePin p_DataPin p_LatchPin s)) a
  = {| buttonMask := 0; pulsePin := p_PulsePin; dataPin := p_DataPin;
       latchPin := p_LatchPin |}.
Proof.
  intros Hp Hd Hl. rewrite init_heap_at. now rewrite !to_uchar_small.
Qed.

(** C9. [K15_NESInitPad] stores each pin identifier reduced modulo 256, and
    a later poll addresses the pins by these stored values.  So two
    initialisations whose pin arguments are pairwise congruent modulo 256
    leave the same struct in the reader, and polls after them issue the
    same pin I/O and store the same mask. *)
Theorem init_pins_modulo_256 (HIGH LOW INPUT OUTPUT : Z) (a : nat)
    (p d l p' d' l' : Z) (s : Machine) :
  p mod 256 = p' mod 256 -> d mod 256 = d' mod 256 -> l mod 256 = l' mod 256 ->
  heap (snd (K15_NESInitPad INPUT OUTPUT (Some a) p d l s)) a
  = {| buttonMask := 0; pulsePin := p mod 256; dataPin := d mod 256;
       latchPin := l mod 256 |}
  /\ heap (snd (K15_NESInitPad INPUT OUTPUT (Some a) p d l s)) a
     = heap (snd (K15_NESInitPad INPUT OUTPUT (Some a) p' d' l' s)) a
  /\ trace (snd (K15_NESPollButtons HIGH LOW (Some a)
                   (snd (K15_NESInitPad INPUT OUTPUT (Some a) p d l s))))
     = trace (snd (K15_NESInitPad INPUT OUTPUT (Some a) p d l s))
       ++ [ EvDigitalWrite (l mod 256) HIGH; EvDigitalWrite (l mod 256) LOW;
            EvDelayMicroseconds 6 ]
       ++ concat (repeat [ EvDigitalRead (d mod 256);
                           EvDigitalWrite (p mod 256) HIGH;
                           EvDigitalWrite (p mod 256) LOW ] 8)
  /\ trace (snd (K15_NESPollButtons HIGH LOW (Some a)
                   (snd (K15_NESInitPad INPUT OUTPUT (Some a) p' d' l' s))))
     = trace (snd (K15_NESInitPad INPUT OUTPUT (Some a) p' d' l' s))
       ++ [ EvDigitalWrite (l mod 256) HIGH; EvDigitalWrite (l mod 256) LOW;
            EvDelayMicroseconds 6 ]
       ++ concat (repeat [ EvDigitalRead (d mod 256);
                           EvDigitalWrite (p mod 256) HIGH;
                           EvDigitalWrite (p mod 256) LOW ] 8)
  /\ heap (snd (K15_NESPollButtons HIGH LOW (Some a)
                  (snd (K15_NESInitPad INPUT OUTPUT (Some a) p d l s)))) a
     = heap (snd (K15_NESPollButtons HIGH LOW (Some a)
                    (snd (K15_NESInitPad INPUT OUTPUT (Some a) p' d' l' s)))) a.
Proof.
  intros Hp Hd Hl.
  assert (Hpad : heap (snd (K15_NESInitPad INPUT OUTPUT (Some a) p d l s)) a
                 = heap (snd (K15_NESInitPad INPUT OUTPUT (Some a) p' d' l' s)) a).
  { rewrite !init_heap_at. unfold to_uchar. now rewrite Hp, Hd, Hl. }
  split; [apply init_heap_at|]. split; [exact Hpad|].
  rewrite !poll_run. unfold with_pad, advance, poll_events, latch_events, samples_events,
    sample_events, set_buttonMask.
  cbn [snd heap trace]. rewrite !Nat.eqb_refl.
  split; [|split].
  - rewrite init_heap_at. reflexivity.
  - rewrite init_heap_at. unfold to_uchar. rewrite <- Hp, <- Hd, <- Hl. reflexivity.
  - unfold sampled. rewrite <- Hpad. reflexivity.
Qed.

(** Pins 8, 12 and 7, and the same pins written 264, 268 and -249. *)
Lemma init_pins_modulo_256_witness :
  heap (snd (K15_NESInitPad Arduino.INPUT Arduino.OUTPUT (Some 0%nat) 264 268 (-249)
               (machine_of (example_pad 0xFF) []))) 0%nat
  = example_pad 0
  /\ heap (snd (K15_NESInitPad Arduino.INPUT Arduino.OUTPUT (Some 0%nat) 8 12 7
                  (machine_of (example_pad 0xFF) []))) 0%nat
     = heap (snd (K15_NESInitPad Arduino.INPUT Arduino.OUTPUT (Some 0%nat) 264 268 (-249)
                    (machine_of (example_pad 0xFF) []))) 0%nat.
Proof.
  destruct (init_pins_modulo_256 Arduino.HIGH Arduino.LOW Arduino.INPUT Arduino.OUTPUT
              0 8 12 7 264 268 (-249) (machine_of (example_pad 0xFF) [])
              eq_refl eq_refl eq_refl) as (_ & Hsame & _).
  split; [reflexivity | exact Hsame].
Defined.

(** * Sequences of calls *)

Lemma mask_of_levels_ext (LOW : Z) (f g : nat -> Z) (n : nat) :
  (forall i, (i < n)%nat -> f i = g i) ->
  mask_of_levels LOW f n = mask_of_levels LOW g n.
Proof.
  induction n as [|n IH]; intros Hfg; cbn [mask_of_levels]; [reflexivity|].
  rewrite (Hfg n) by lia. rewrite IH; [reflexivity|]. intros i Hi. apply Hfg. lia.
Qed.

(** The bits of the mask a poll stores. *)
Lemma polled_bits (HIGH LOW : Z) (a : nat) (s : Machine) (j : Z) :
  Z.testbit (buttonMask (heap (snd (K15_NESPollButtons HIGH LOW (Some a) s)) a)) j
  = (0 <=? j) && (j <? 8) && (sampled s a (Z.to_nat j) =? LOW).
Proof.
  rewrite poll_run. unfold with_pad, set_buttonMask. cbn [snd heap].
  rewrite Nat.eqb_refl. cbn [buttonMask]. apply mask_of_levels_testbit.
Qed.

Lemma polled_range (HIGH LOW : Z) (a : nat) (s : Machine) :
  uchar_range (buttonMask (heap (snd (K15_NESPollButtons HIGH LOW (Some a) s)) a)).
Proof.
  rewrite poll_run. unfold with_pad, set_buttonMask. cbn [snd heap].
  rewrite Nat.eqb_refl. cbn [buttonMask].
  pose proof (mask_of_levels_bounds LOW (sampled s a) 8) as H.
  change (2 ^ Z.of_nat 8) with 256 in H. exact H.
Qed.

(** X1. Two polls of a reader in a row: the second samples the 8 levels
    that follow the 8 of the first, and the mask it leaves is made of these
    alone; nothing of the first poll's mask survives.  The two polls issue
    the same pin protocol on the same pins, one after the other. *)
Theorem consecutive_polls (HIGH LOW : Z) (a : nat) (s : Machine) :
  buttonMask (heap (snd (K15_NESPollButtons HIGH LOW (Some a)
                           (snd (K15_NESPollButtons HIGH LOW (Some a) s)))) a)
  = mask_of_levels LOW (fun i => sampled s a (8 + i)) 8
  /\ trace (snd (K15_NESPollButtons HIGH LOW (Some a)
                   (snd (K15_NESPollButtons HIGH LOW (Some a) s))))
     = trace s ++ poll_events HIGH LOW (heap s a) ++ poll_events HIGH LOW (heap s a)
  /\ nreads (snd (K15_NESPollButtons HIGH LOW (Some a)
                    (snd (K15_NESPollButtons HIGH LOW (Some a) s))))
     = (nreads s + 16)%nat.
Proof.
  rewrite (poll_run HIGH LOW a (snd (K15_NESPollButtons HIGH LOW (Some a) s))).
  rewrite (poll_run HIGH LOW a s).
  unfold with_pad, advance, set_buttonMask. cbn [snd heap trace nreads].
  rewrite !Nat.eqb_refl. cbn [buttonMask].
  split; [|split].
  - apply mask_of_levels_ext. intros i _. unfold sampled. cbn [heap nreads line].
    rewrite Nat.eqb_refl. cbn [dataPin]. f_equal. lia.
  - rewrite <- app_assoc. reflexivity.
  - lia.
Qed.

(** X2. Polling two readers at different addresses, one after the other:
    each ends up with the mask of the 8 levels sampled on its own data pin
    during its own poll, its pin fields are unchanged, and no other struct
    is written. *)
Theorem polls_do_not_interfere (HIGH LOW : Z) (a1 a2 : nat) (s : Machine) :
  a1 <> a2 ->
  forall a' : nat,
    heap (snd (poll_both HIGH LOW a1 a2 s)) a'
    = if Nat.eqb a' a1
      then {| buttonMask := mask_of_levels LOW (sampled s a1) 8;
              pulsePin := pulsePin (heap s a1);
              dataPin := dataPin (heap s a1);
              latchPin := latchPin (heap s a1) |}
      else if Nat.eqb a' a2
      then {| buttonMask :=
                mask_of_levels LOW
                  (fun i => line s (nreads s + 8 + i) (dataPin (heap s a2))) 8;
              pulsePin := pulsePin (heap s a2);
              dataPin := dataPin (heap s a2);
              latchPin := latchPin (heap s a2) |}
      else heap s a'.
Proof.
  intros Hne a'. unfold poll_both, bind.
  rewrite (poll_run HIGH LOW a1 s). rewrite poll_run.
  unfold with_pad, advance, set_buttonMask, sampled. cbn [snd heap trace nreads line].
  assert (H21 : Nat.eqb a2 a1 = false) by (apply Nat.eqb_neq; congruence).
  rewrite H21.
  destruct (Nat.eqb_spec a' a2) as [->|Hn2].
  - rewrite H21. reflexivity.
  - reflexivity.
Qed.

(** Button A held on the first pad, button B on the second. *)
Lemma polls_do_not_interfere_witness :
  buttonMask (heap (snd (poll_both Arduino.HIGH Arduino.LOW 0 1
                           (two_readers [0; 1; 1; 1; 1; 1; 1; 1]
                                        [1; 0; 1; 1; 1; 1; 1; 1]))) 0%nat) = 0x01
  /\ buttonMask (heap (snd (poll_both Arduino.HIGH Arduino.LOW 0 1
                              (two_readers [0; 1; 1; 1; 1; 1; 1; 1]
                                           [1; 0; 1; 1; 1; 1; 1; 1]))) 1%nat) = 0x02.
Proof.
  assert (Hne : 0%nat <> 1%nat) by discriminate.
  split.
  - rewrite (polls_do_not_interfere Arduino.HIGH Arduino.LOW 0 1 _ Hne 0%nat). reflexivity.
  - rewrite (polls_do_not_interfere Arduino.HIGH Arduino.LOW 0 1 _ Hne 1%nat). reflexivity.
Defined.

(** X3. The loop's accumulator: after the latch pulse and [k] turns of the
    loop it holds exactly the bits of the samples taken so far (there are
    never more than 8, however much fuel the loop is given), so it stays
    within 0..255: no [int] overflow, and the final conversion to
    [unsigned char] loses nothing. *)
Theorem accumulator_invariant (HIGH LOW : Z) (a : nat) (k : nat) (s : Machine) :
  fst (poll_midway HIGH LOW a k s) = mask_of_levels LOW (sampled s a) (Nat.min k 8)
  /\ nreads (snd (poll_midway HIGH LOW a k s)) = (nreads s + Nat.min k 8)%nat
  /\ 0 <= fst (poll_midway HIGH LOW a k s) < 2 ^ Z.of_nat (Nat.min k 8)
  /\ uchar_range (fst (poll_midway HIGH LOW a k s))
  /\ to_uchar (fst (poll_midway HIGH LOW a k s)) = fst (poll_midway HIGH LOW a k s).
Proof.
  assert (Hrun : poll_midway HIGH LOW a k s = poll_midway HIGH LOW a (Nat.min k 8) s).
  { destruct (Nat.le_gt_cases k 8) as [Hle|Hgt].
    - now rewrite Nat.min_l.
    - rewrite Nat.min_r by lia. replace k with (8 + (k - 8))%nat by lia.
      unfold poll_midway, bind. rewrite poll_latch_run.
      rewrite (poll_loop_fuel HIGH LOW 8 (k - 8)) by lia. reflexivity. }
  rewrite Hrun, poll_midway_run by lia. cbn [fst snd advance nreads].
  pose proof (mask_of_levels_bounds LOW (sampled s a) (Nat.min k 8)) as Hb.
  assert (Hpow : 2 ^ Z.of_nat (Nat.min k 8) <= 256).
  { change 256 with (2 ^ 8). apply Z.pow_le_mono_r; lia. }
  assert (Hr : uchar_range (mask_of_levels LOW (sampled s a) (Nat.min k 8)))
    by (unfold uchar_range; lia).
  repeat split; try lia. now apply to_uchar_small.
Qed.

(** X4. The extremes of a poll.  The stored mask is 0 exactly when none of
    the 8 samples was [LOW] (no button held, or a data line stuck high),
    and 0xFF exactly when all of them were.  Asking for all flags at once
    (0xFF) answers 1 exactly when at least one sample was [LOW]. *)
Theorem poll_extremes (HIGH LOW : Z) (a : nat) (s : Machine) :
  (buttonMask (heap (snd (K15_NESPollButtons HIGH LOW (Some a) s)) a) = 0
   <-> forall i, (i < 8)%nat -> sampled s a i <> LOW)
  /\ (buttonMask (heap (snd (K15_NESPollButtons HIGH LOW (Some a) s)) a) = 0xFF
      <-> forall i, (i < 8)%nat -> sampled s a i = LOW)
  /\ (fst (K15_NESButtonPressed (Some a) 0xFF
             (snd (K15_NESPollButtons HIGH LOW (Some a) s))) = 1
      <-> exists i, (i < 8)%nat /\ sampled s a i = LOW).
Proof.
  pose proof (polled_bits HIGH LOW a s) as Hbits.
  pose proof (polled_range HIGH LOW a s) as Hrange.
  set (m := buttonMask (heap (snd (K15_NESPollButtons HIGH LOW (Some a) s)) a)) in *.
  assert (Hbit : forall i, (i < 8)%nat ->
                   Z.testbit m (Z.of_nat i) = (sampled s a i =? LOW)).
  { intros i Hi. rewrite Hbits, Nat2Z.id.
    replace (0 <=? Z.of_nat i) with true by (symmetry; apply Z.leb_le; lia).
    replace (Z.of_nat i <? 8) with true by (symmetry; apply Z.ltb_lt; lia).
    reflexivity. }
  assert (Hzero : m = 0 <-> forall i, (i < 8)%nat -> sampled s a i <> LOW).
  { split.
    - intros E i Hi HL. specialize (Hbit i Hi). rewrite E, Z.bits_0 in Hbit.
      apply Z.eqb_eq in HL. congruence.
    - intros Hall. apply Z.bits_inj. intros j. rewrite Hbits, Z.bits_0.
      destruct (0 <=? j) eqn:E0; [|reflexivity].
      destruct (j <? 8) eqn:E8; [|reflexivity]. cbn [andb].
      apply Z.leb_le in E0. apply Z.ltb_lt in E8.
      apply Z.eqb_neq. apply Hall. lia. }
  split; [exact Hzero|]. split.
  - split.
    + intros E i Hi. specialize (Hbit i Hi). rewrite E in Hbit.
      change 0xFF with (Z.ones 8) in Hbit. rewrite Z.testbit_ones in Hbit by lia.
      replace (0 <=? Z.of_nat i) with true in Hbit by (symmetry; apply Z.leb_le; lia).
      replace (Z.of_nat i <? 8) with true in Hbit by (symmetry; apply Z.ltb_lt; lia).
      symmetry in Hbit. now apply Z.eqb_eq in Hbit.
    + intros Hall. apply Z.bits_inj. intros j. rewrite Hbits.
      change 0xFF with (Z.ones 8). rewrite Z.testbit_ones by lia.
      destruct (0 <=? j) eqn:E0; [|reflexivity].
      destruct (j <? 8) eqn:E8; [|reflexivity]. cbn [andb].
      apply Z.leb_le in E0. apply Z.ltb_lt in E8.
      apply Z.eqb_eq. apply Hall. lia.
  - rewrite pressed_run. cbn [fst]. fold m.
    assert (Hland : Z.land m 0xFF = m).
    { change 0xFF with (Z.ones 8). rewrite Z.land_ones by lia.
      apply Z.mod_small. exact Hrange. }
    rewrite Hland. split.
    + intros Hq. destruct (Z.gtb_spec m 0) as [Hpos|]; [|discriminate].
      pose proof (Z.bit_log2 m ltac:(lia)) as Hlog.
      rewrite Hbits in Hlog. apply andb_true_iff in Hlog. destruct Hlog as [Hlog HL].
      apply andb_true_iff in Hlog. destruct Hlog as [H0 H8].
      apply Z.leb_le in H0. apply Z.ltb_lt in H8. apply Z.eqb_eq in HL.
      exists (Z.to_nat (Z.log2 m)). split; [lia|exact HL].
    + intros (i & Hi & HL).
      destruct (Z.gtb_spec m 0) as [|Hle]; [reflexivity|]. exfalso.
      assert (E : m = 0) by (destruct Hrange; lia).
      apply (proj1 Hzero E i Hi HL).
Qed.

(** A property checked on each of the 256 values of an [unsigned char]
    holds of all of them. *)
Lemma uchar_cases (P : Z -> bool) :
  forallb P (map Z.of_nat (seq 0 256)) = true ->
  forall m : Z, uchar_range m -> P m = true.
Proof.
  intros Hall m [Hlo Hhi]. rewrite forallb_forall in Hall. apply Hall.
  apply in_map_iff. exists (Z.to_nat m). split; [lia|]. apply in_seq. lia.
Qed.

Lemma pressed_answers_run (a : nat) (s : Machine) :
  pressed_answers (Some a) s
  = map (fun i => Z.b2z (Z.testbit (buttonMask (heap s a)) (Z.of_nat i))) (seq 0 8).
Proof.
  unfold pressed_answers. rewrite <- pressed_flags. apply map_ext.
  intros b. now rewrite pressed_run.
Qed.

Lemma answers_of_levels (LOW : Z) (levels : nat -> Z) :
  map (fun i => Z.b2z (Z.testbit (mask_of_levels LOW levels 8) (Z.of_nat i))) (seq 0 8)
  = map (fun i => if levels i =? LOW then 1 else 0) (seq 0 8).
Proof.
  apply map_ext_in. intros i Hi. apply in_seq in Hi.
  rewrite mask_of_levels_testbit, Nat2Z.id.
  replace (0 <=? Z.of_nat i) with true by (symmetry; apply Z.leb_le; lia).
  replace (Z.of_nat i <? Z.of_nat 8) with true by (symmetry; apply Z.ltb_lt; lia).
  cbn [andb]. destruct (levels i =? LOW); reflexivity.
Qed.

(** X5. Asking for several buttons at once is the disjunction of asking for
    each: on a non-null reader, the answer for [b1 | b2] is the bitwise or
    of the answers for [b1] and for [b2], so it is 1 exactly when one of
    the two is. *)
Theorem button_pressed_union (a : nat) (b1 b2 : Z) (s : Machine) :
  uchar_range (buttonMask (heap s a)) ->
  fst (K15_NESButtonPressed (Some a) (Z.lor b1 b2) s)
  = Z.lor (fst (K15_NESButtonPressed (Some a) b1 s))
          (fst (K15_NESButtonPressed (Some a) b2 s))
  /\ (fst (K15_NESButtonPressed (Some a) (Z.lor b1 b2) s) = 1
      <-> fst (K15_NESButtonPressed (Some a) b1 s) = 1
          \/ fst (K15_NESButtonPressed (Some a) b2 s) = 1).
Proof.
  intros Hm. rewrite !pressed_run. cbn [fst]. rewrite !pressed_value by exact Hm.
  rewrite Z.land_lor_distr_r.
  pose proof (Z.lor_eq_0_iff (Z.land (buttonMask (heap s a)) b1)
                             (Z.land (buttonMask (heap s a)) b2)) as H0.
  destruct (Z.eqb_spec (Z.land (buttonMask (heap s a)) b1) 0) as [E1|N1],
           (Z.eqb_spec (Z.land (buttonMask (heap s a)) b2) 0) as [E2|N2],
           (Z.eqb_spec (Z.lor (Z.land (buttonMask (heap s a)) b1)
                              (Z.land (buttonMask (heap s a)) b2)) 0) as [E|N];
    try (exfalso; tauto); cbn [Z.lor]; split; try reflexivity; try tauto;
    split; intros; try discriminate; try tauto;
    repeat match goal with H : _ \/ _ |- _ => destruct H end; discriminate.
Qed.

(** Holding Up only: "A or Up" answers 1, as Up alone does, and A alone
    answers 0. *)
Lemma button_pressed_union_witness :
  fst (K15_NESButtonPressed (Some 0%nat) (Z.lor K15_NESPadButton_A K15_NESPadButton_Up)
         (machine_of (example_pad 0x10) []))
  = 1.
Proof.
  assert (Hm : uchar_range (buttonMask (heap (machine_of (example_pad 0x10) []) 0%nat)))
    by (unfold uchar_range; cbn; lia).
  exact (proj1 (button_pressed_union 0 K15_NESPadButton_A K15_NESPadButton_Up
                  (machine_of (example_pad 0x10) []) Hm)).
Defined.

(** X6. The 8 flags read the whole mask back: on a non-null reader, the
    answers for A, B, Select, Start, Up, Down, Left, Right, taken as the
    bits 0 to 7 of an integer, give [buttonMask]. *)
Theorem answers_spell_mask (a : nat) (s : Machine) :
  uchar_range (buttonMask (heap s a)) ->
  weigh (pressed_answers (Some a) s) = buttonMask (heap s a).
Proof.
  intros Hm. rewrite pressed_answers_run.
  apply Z.eqb_eq.
  apply (uchar_cases
           (fun m => weigh (map (fun i => Z.b2z (Z.testbit m (Z.of_nat i))) (seq 0 8)) =? m));
    [vm_compute; reflexivity | exact Hm].
Qed.

Lemma answers_spell_mask_witness :
  weigh (pressed_answers (Some 0%nat) (machine_of (example_pad 0xA5) [])) = 0xA5.
Proof.
  apply (answers_spell_mask 0 (machine_of (example_pad 0xA5) [])).
  unfold uchar_range; cbn; lia.
Defined.



(** X8. From [setup] to the first answers.  With pin identifiers that fit
    an [unsigned char], initialising a reader and polling it once issues
    the three [pinMode] calls and then the poll protocol on exactly the
    pins given, leaves in the reader these pins and the mask of the 8
    levels sampled on the data pin, and makes the flag of button [i] answer
    1 exactly when sample [i] was [LOW]; whatever the struct held before
    the initialisation plays no part. *)
Theorem init_then_poll_reads_buttons (HIGH LOW INPUT OUTPUT : Z) (a : nat)
    (p d l : Z) (s : Machine) :
  uchar_range p -> uchar_range d -> uchar_range l ->
  trace (snd (init_then_poll HIGH LOW INPUT OUTPUT (Some a) p d l s))
  = trace s
    ++ [ EvPinMode d INPUT; EvPinMode p OUTPUT; EvPinMode l OUTPUT ]
    ++ [ EvDigitalWrite l HIGH; EvDigitalWrite l LOW; EvDelayMicroseconds 6 ]
    ++ concat (repeat [ EvDigitalRead d; EvDigitalWrite p HIGH; EvDigitalWrite p LOW ] 8)
  /\ heap (snd (init_then_poll HIGH LOW INPUT OUTPUT (Some a) p d l s)) a
     = {| buttonMask := mask_of_levels LOW (fun i => line s (nreads s + i) d) 8;
          pulsePin := p; dataPin := d; latchPin := l |}
  /\ pressed_answers (Some a) (snd (init_then_poll HIGH LOW INPUT OUTPUT (Some a) p d l s))
     = map (fun i => if line s (nreads s + i) d =? LOW then 1 else 0) (seq 0 8).
Proof.
  intros Hp Hd Hl.
  assert (Hsplit : snd (init_then_poll HIGH LOW INPUT OUTPUT (Some a) p d l s)
                   = snd (K15_NESPollButtons HIGH LOW (Some a)
                            (snd (K15_NESInitPad INPUT OUTPUT (Some a) p d l s)))).
  { unfold init_then_poll, bind.
    destruct (K15_NESInitPad INPUT OUTPUT (Some a) p d l s) as [[] s1]. reflexivity. }
  assert (Hpad : heap (snd (K15_NESInitPad INPUT OUTPUT (Some a) p d l s)) a
                 = {| buttonMask := 0; pulsePin := p; dataPin := d; latchPin := l |}).
  { rewrite init_heap_at. now rewrite !to_uchar_small. }
  assert (Hheap : heap (snd (init_then_poll HIGH LOW INPUT OUTPUT (Some a) p d l s)) a
                  = {| buttonMask := mask_of_levels LOW (fun i => line s (nreads s + i) d) 8;
                       pulsePin := p; dataPin := d; latchPin := l |}).
  { rewrite Hsplit, poll_run. unfold with_pad, set_buttonMask, sampled. cbn [snd heap].
    rewrite Nat.eqb_refl, Hpad. cbn [pulsePin dataPin latchPin]. reflexivity. }
  split; [|split].
  - rewrite Hsplit, poll_run. unfold with_pad, advance. cbn [snd trace].
    rewrite init_trace, Hpad. rewrite <- app_assoc. reflexivity.
  - exact Hheap.
  - rewrite pressed_answers_run, Hheap. cbn [buttonMask]. apply answers_of_levels.
Qed.

(** The sketch of the header: pulse on 8, data on 12, latch on 7, with A and
    Start held. *)
Lemma init_then_poll_reads_buttons_witness :
  pressed_answers (Some 0%nat)
    (snd (init_then_poll Arduino.HIGH Arduino.LOW Arduino.INPUT Arduino.OUTPUT
            (Some 0%nat) 8 12 7 (machine_of (example_pad 0xFF) [0; 1; 1; 0; 1; 1; 1; 1])))
  = [1; 0; 0; 1; 0; 0; 0; 0].
Proof.
  assert (H8 : uchar_range 8) by (unfold uchar_range; lia).
  assert (H12 : uchar_range 12) by (unfold uchar_range; lia).
  assert (H7 : uchar_range 7) by (unfold uchar_range; lia).
  destruct (init_then_poll_reads_buttons Arduino.HIGH Arduino.LOW Arduino.INPUT
              Arduino.OUTPUT 0 8 12 7
              (machine_of (example_pad 0xFF) [0; 1; 1; 0; 1; 1; 1; 1]) H8 H12 H7)
    as (_ & _ & Hanswers).
  rewrite Hanswers. reflexivity.
Defined.


